(** * Paid-media advisor: the segment filter, the ROI predictor and the
      three-stage pipeline, embedded from the Python sources.

    Scope of the embedding.
    - Text is byte strings ([string]); [lower] is Python's [str.lower] on
      ASCII text, and the digit class of the budget pattern is the ASCII one.
    - Floating-point columns are IEEE binary64 ([float]); comparisons with
      the literals of the source are the primitive ones.
    - pandas reductions ([Series.mean]), Python's [round] and the text of a
      number in an f-string are operations of the runtime, taken as a record
      of functions ([PyRuntime]).
    - The gradient-boosted model and the hosted language model are external
      collaborators, taken as records of functions ([Booster], [LLMChain]);
      their calls are logged, and they may raise. *)

From Stdlib Require Import List String Ascii ZArith Bool Lia Floats.
From Stdlib Require Import Permutation Sorted.
Import ListNotations.

Local Open Scope string_scope.
Local Open Scope list_scope.

(* Decimal literals of the source denote the nearest binary64 number, in
   Python as here. *)
Set Warnings "-inexact-float".

(** ** Python strings *)

Module PyStr.

Definition is_upper (c : ascii) : bool :=
  let n := N_of_ascii c in (65 <=? n)%N && (n <=? 90)%N.

Definition lower_char (c : ascii) : ascii :=
  if is_upper c then ascii_of_N (N_of_ascii c + 32) else c.

(** [s.lower()] *)
Fixpoint lower (s : string) : string :=
  match s with
  | EmptyString => EmptyString
  | String c t => String (lower_char c) (lower t)
  end.

(** [needle in hay] *)
Fixpoint contains (needle hay : string) : bool :=
  String.prefix needle hay
  || match hay with
     | EmptyString => false
     | String _ t => contains needle t
     end.

Definition is_space (c : ascii) : bool :=
  let n := N_of_ascii c in
  ((9 <=? n)%N && (n <=? 13)%N) || ((28 <=? n)%N && (n <=? 32)%N).

Fixpoint lstrip (s : string) : string :=
  match s with
  | EmptyString => EmptyString
  | String c t => if is_space c then lstrip t else s
  end.

Fixpoint rev_string (s : string) (acc : string) : string :=
  match s with
  | EmptyString => acc
  | String c t => rev_string t (String c acc)
  end.

(** [s.strip()] *)
Definition strip (s : string) : string :=
  rev_string (lstrip (rev_string (lstrip s) EmptyString)) EmptyString.

Definition is_digit (c : ascii) : bool :=
  let n := N_of_ascii c in (48 <=? n)%N && (n <=? 57)%N.

Definition is_comma (c : ascii) : bool := Ascii.eqb c ","%char.

Definition is_dollar (c : ascii) : bool := Ascii.eqb c "$"%char.

(** [s.replace(",", "")] *)
Fixpoint remove_commas (s : string) : string :=
  match s with
  | EmptyString => EmptyString
  | String c t => if is_comma c then remove_commas t
                  else String c (remove_commas t)
  end.

(** The value of a run of decimal digits, most significant first. *)
Fixpoint digits_value (s : string) (acc : Z) : Z :=
  match s with
  | EmptyString => acc
  | String c t => digits_value t (10 * acc + Z.of_N (N_of_ascii c - 48))%Z
  end.

Fixpoint all_digits (s : string) : bool :=
  match s with
  | EmptyString => true
  | String c t => is_digit c && all_digits t
  end.

End PyStr.

(** ** Numbers *)

Module Num.

(** The binary64 number nearest to an integer (ties to even), as
    [float(str)] gives for a run of digits. *)
Definition float_of_Z (z : Z) : float :=
  SF2Prim (binary_normalize prec emax z 0 false).

(** [float(s)] for the texts the budget pattern can produce: digits only.
    The empty text raises ValueError ([None]). *)
Definition py_float (s : string) : option float :=
  match s with
  | EmptyString => None
  | _ => if PyStr.all_digits s
         then Some (float_of_Z (PyStr.digits_value s 0))
         else None
  end.

Definition gt (x y : float) : bool := PrimFloat.ltb y x.
Definition lt (x y : float) : bool := PrimFloat.ltb x y.

End Num.

(** ** Records *)

(** The seven columns a segment record carries (main.py, SegmentRecord). *)
Record SegmentRecord := {
  business_unit : string;
  channel : string;
  region : string;
  roi : float;
  clicks : Z;
  cost_per_click : float;
  cpm : float
}.

(** A row of data/campaign_data.csv: the seven columns the code reads, and
    whatever other columns the file has. *)
Record CampaignRow := {
  selected :> SegmentRecord;
  other_columns : list (string * string)
}.


(** The text passed between the stages: the JSON array of records that
    [to_json(orient="records")] writes, or text that is no JSON at all.
    The literal "[]" is [JsonRecords []]. *)
Inductive json_text :=
| JsonRecords (records : list SegmentRecord)
| NotJson (text : string).

(** [DataFrame.empty] of a frame given by its rows. *)
Definition is_empty {A} (l : list A) : bool :=
  match l with [] => true | _ => false end.

(** ** tools/segment_insight_tool.py *)

Module SegmentInsight.

Inductive column := col_region | col_business_unit | col_channel.

Definition column_name (c : column) : string :=
  match c with
  | col_region => "region"
  | col_business_unit => "business_unit"
  | col_channel => "channel"
  end.

(** [row[col]] for a categorical column *)
Definition get (c : column) (r : SegmentRecord) : string :=
  match c with
  | col_region => region r
  | col_business_unit => business_unit r
  | col_channel => channel r
  end.

Definition keyword_map : list (column * list string) :=
  [ (col_region, ["north america"; "europe"; "asia"]);
    (col_business_unit, ["gbs"; "watson"; "cloud"; "security"; "analytics"]);
    (col_channel, ["display"; "paid search"; "paid social"]) ].

(** [filtered[col].str.lower() == keyword] on one row *)
Definition matches (c : column) (keyword : string) (r : CampaignRow) : bool :=
  String.eqb (PyStr.lower (get c r)) keyword.

(** The inner loop: [for keyword in keywords: if keyword in query: ...] *)
Fixpoint filter_keywords (query : string) (c : column) (keywords : list string)
         (filtered : list CampaignRow) : list CampaignRow :=
  match keywords with
  | [] => filtered
  | keyword :: rest =>
      filter_keywords query c rest
        (if PyStr.contains keyword query
         then filter (matches c keyword) filtered
         else filtered)
  end.

(** The outer loop: [for col, keywords in keyword_map.items(): ...] *)
Fixpoint filter_columns (query : string) (km : list (column * list string))
         (filtered : list CampaignRow) : list CampaignRow :=
  match km with
  | [] => filtered
  | (c, keywords) :: rest =>
      filter_columns query rest (filter_keywords query c keywords filtered)
  end.

Definition low_roi (r : CampaignRow) : bool := Num.lt (roi r) 0.2.
Definition high_cpc (r : CampaignRow) : bool := Num.gt (cost_per_click r) 2.0.

(** The performance terms *)
Definition filter_performance (query : string) (filtered : list CampaignRow)
  : list CampaignRow :=
  let filtered :=
    if PyStr.contains "low roi" query then filter low_roi filtered else filtered in
  if PyStr.contains "high cpc" query then filter high_cpc filtered else filtered.

(** The working set when the function reaches [if filtered.empty]. *)
Definition filtered_rows (df : list CampaignRow) (query : string) : list CampaignRow :=
  let query := PyStr.lower query in
  filter_performance query (filter_columns query keyword_map df).


(** [filtered[[...]].to_json(orient="records")] *)
Definition to_json (filtered : list CampaignRow) : json_text :=
  JsonRecords (map selected filtered).

(** The literal "[]" of the early return. *)
Definition empty_segment : json_text := JsonRecords [].

Definition segment_insight (df : list CampaignRow) (query : string) : json_text :=
  let filtered := filtered_rows df query in
  if is_empty filtered then empty_segment
  else to_json filtered.

End SegmentInsight.

(** ** Effects: a log of the calls to the collaborators, and exceptions *)

Inductive number :=
| Int (n : Z)
| Float (x : float).

(** One row of the matrix handed to the model: column name and value. *)
Definition dmatrix_row := list (string * number).

Inductive event :=
| ev_predict (rows : list dmatrix_row)
| ev_get_score
| ev_chain_run (query : string)
| ev_enter (node : string)
| ev_return (node : string).

Inductive exn :=
| ValueError (msg : string)
| KeyError (key : string)
| IndexError
| XGBoostError
| GraphRecursionError
| HTTPException (status_code : Z) (detail : string).

Inductive outcome (A : Type) :=
| Ok (a : A)
| Raise (e : exn).
Arguments Ok {A} a.
Arguments Raise {A} e.

(** A computation: how it ends, and the calls it made, oldest first. *)
Definition M (A : Type) : Type := outcome A * list event.

Definition ret {A} (a : A) : M A := (Ok a, []).
Definition raise {A} (e : exn) : M A := (Raise e, []).
Definition log (e : event) : M unit := (Ok tt, [e]).

Definition bind {A B} (m : M A) (f : A -> M B) : M B :=
  match m with
  | (Ok a, t1) => let (r, t2) := f a in (r, t1 ++ t2)
  | (Raise e, t1) => (Raise e, t1)
  end.

(** [try: body except Exception: handler] *)
Definition try_except {A} (body : M A) (handler : exn -> M A) : M A :=
  match body with
  | (Ok a, t1) => (Ok a, t1)
  | (Raise e, t1) => let (r, t2) := handler e in (r, t1 ++ t2)
  end.

Declare Scope py_scope.
Delimit Scope py_scope with py.
Notation "x <- m ;; k" := (bind m (fun x => k))
  (at level 100, m at next level, right associativity) : py_scope.
Notation "m ;;; k" := (bind m (fun _ => k))
  (at level 100, right associativity) : py_scope.

Definition result {A} (m : M A) : outcome A := fst m.
Definition trace {A} (m : M A) : list event := snd m.

(** ** The collaborators *)

(** The loaded xgboost model. [predict] is [None] when the call raises. *)
Record Booster := {
  predict : list dmatrix_row -> option (list float);
  get_score : list (string * float)
}.

(** pandas' [Series.mean], Python's [round(x, ndigits)] and the text of a
    number inside an f-string. *)
Record PyRuntime := {
  series_mean : list float -> float;
  round_ : float -> Z -> float;
  str_float : float -> string
}.

(** ** tools/performance_analysis_tool.py *)

Record RoiSummary := {
  high_performers : list string;
  low_performers : list string;
  average_roi : option float;
  top_features : string;
  projected_roi : option float
}.

(** The dict [{"roi_summary": {...}}] the tool returns. *)
Record ToolOutput := { roi_summary : RoiSummary }.

Module PerformanceAnalysis.

Definition in_class (c : ascii) : bool := PyStr.is_digit c || PyStr.is_comma c.

Fixpoint take_class (s : string) : string :=
  match s with
  | EmptyString => EmptyString
  | String c t => if in_class c then String c (take_class t) else EmptyString
  end.

Definition starts_class (s : string) : bool :=
  match s with
  | EmptyString => false
  | String c _ => in_class c
  end.

(** [re.search(r"\$?([\d,]+)", query)], giving [match.group(1)]: the
    leftmost position where the pattern matches, the optional dollar sign
    taken when a digit or comma follows it, the run taken greedily. *)
Fixpoint re_search (query : string) : option string :=
  match query with
  | EmptyString => None
  | String c t =>
      if PyStr.is_dollar c && starts_class t then Some (take_class t)
      else if in_class c then Some (take_class query)
      else re_search t
  end.

(** [pd.read_json(StringIO(segment_json))] *)
Definition read_json (segment_json : json_text) : M (list SegmentRecord) :=
  match segment_json with
  | JsonRecords records => ret records
  | NotJson _ => raise (ValueError "Expected object or value")
  end.

Definition empty_summary : ToolOutput :=
  {| roi_summary := {| high_performers := [];
                       low_performers := [];
                       average_roi := None;
                       top_features := "";
                       projected_roi := None |} |}.

(** One row of [segment_df[["clicks", "cost_per_click", "cpm"]]] *)
Definition model_input (r : SegmentRecord) : dmatrix_row :=
  [ ("clicks", Int (clicks r));
    ("cost_per_click", Float (cost_per_click r));
    ("cpm", Float (cpm r)) ].

Definition is_high (r : SegmentRecord) : bool := Num.gt (roi r) 2.0.
Definition is_low (r : SegmentRecord) : bool := Num.lt (roi r) 1.0.

(** [sorted(items, key=lambda x: x[1], reverse=True)]: stable, descending. *)
Fixpoint insert_desc (x : string * float) (l : list (string * float))
  : list (string * float) :=
  match l with
  | [] => [x]
  | y :: l' => if PrimFloat.ltb (snd x) (snd y) then y :: insert_desc x l'
               else x :: l
  end.

Definition sorted_desc (items : list (string * float)) : list (string * float) :=
  fold_right insert_desc [] items.

Section WithModel.

Context (booster : Booster) (py : PyRuntime).

(** [booster.predict(xgb.DMatrix(rows))] *)
Definition booster_predict (rows : list dmatrix_row) : M (list float) :=
  (log (ev_predict rows) ;;;
   match predict booster rows with
   | Some predictions => ret predictions
   | None => raise XGBoostError
   end)%py.

(** [booster.get_score(importance_type="gain")] *)
Definition booster_get_score : M (list (string * float)) :=
  (log ev_get_score ;;; ret (get_score booster))%py.

(** [segment_df["predicted_roi"] = predictions] *)
Definition assign_column (segment_df : list SegmentRecord)
           (predictions : list float) : M (list float) :=
  if Nat.eqb (List.length predictions) (List.length segment_df)
  then ret predictions
  else raise (ValueError "Length of values does not match length of index").

Definition format_campaign (row : SegmentRecord) : string :=
  business_unit row ++ " | " ++ channel row ++ " | " ++ region row
    ++ " → ROI: " ++ str_float py (round_ py (roi row) 2).

Definition format_feature (kv : string * float) : string :=
  fst kv ++ " (" ++ str_float py (round_ py (snd kv) 2) ++ ")".

Definition first {A} (l : list A) : M A :=
  match l with
  | [] => raise IndexError
  | x :: _ => ret x
  end.

(** [budget / avg_cpc if avg_cpc > 0 else 1000] *)
Definition estimated_clicks (budget avg_cpc : float) : number :=
  if Num.gt avg_cpc 0 then Float (budget / avg_cpc) else Int 1000.

(** The one-row frame of the made-up campaign. *)
Definition synthetic (budget avg_cpc avg_cpm : float) : list dmatrix_row :=
  [ [ ("clicks", estimated_clicks budget avg_cpc);
      ("cost_per_click", Float avg_cpc);
      ("cpm", Float avg_cpm) ] ].

(** The body of the [try] of the budget projection. *)
Definition project (amount_str : string) (segment_df : list SegmentRecord)
  : M (option float) :=
  (budget <- match Num.py_float amount_str with
             | Some b => ret b
             | None => raise (ValueError "could not convert string to float")
             end ;;
   let avg_cpc := series_mean py (map cost_per_click segment_df) in
   let avg_cpm := series_mean py (map cpm segment_df) in
   predictions <- booster_predict (synthetic budget avg_cpc avg_cpm) ;;
   projected <- first predictions ;;
   ret (Some (round_ py projected 4)))%py.

(** The step "Optional projected ROI from investment": [projected_roi]
    starts as [None], and is set inside [if match: try: ... except]. *)
Definition optional_projection (query : string) (segment_df : list SegmentRecord)
  : M (option float) :=
  match re_search query with
  | Some group1 =>
      let amount_str := PyStr.remove_commas group1 in
      try_except (project amount_str segment_df) (fun _ => ret None)
  | None => ret None
  end.

Definition _predict_and_explain (query : string) (segment_json : json_text)
  : M ToolOutput :=
  (segment_df <- read_json segment_json ;;
   if is_empty segment_df then ret empty_summary
   else
     let model_input_df := map model_input segment_df in
     predictions <- booster_predict model_input_df ;;
     predicted_roi <- assign_column segment_df predictions ;;
     let avg_roi := round_ py (series_mean py predicted_roi) 4 in
     let high := filter is_high segment_df in
     let low := filter is_low segment_df in
     let high_list := map format_campaign high in
     let low_list := map format_campaign low in
     importance <- booster_get_score ;;
     let top := sorted_desc importance in
     let explanation := String.concat ", " (map format_feature top) in
     projected <- optional_projection query segment_df ;;
     ret {| roi_summary := {| high_performers := high_list;
                              low_performers := low_list;
                              average_roi := Some avg_roi;
                              top_features := explanation;
                              projected_roi := projected |} |})%py.

(** The StructuredTool built from the function: [invoke] calls it. *)
Definition performance_analysis := _predict_and_explain.

End WithModel.

End PerformanceAnalysis.

(** ** agents/strategy_generator_agent.py *)

(** The hosted language-model chain: [run] gives the text, or the message of
    the exception the call raised ([inl]). *)
Record LLMChain := {
  run : string -> ToolOutput -> string + string
}.

Module StrategyGenerator.

Definition generate_strategy (chain : LLMChain) (query : string)
           (performance_analysis : ToolOutput) : M string :=
  (log (ev_chain_run query) ;;;
   match run chain query performance_analysis with
   | inr text => ret text
   | inl e => ret ("Strategy generation error: " ++ e)%string
   end)%py.

End StrategyGenerator.

(** ** graph/flow.py *)

Module Flow.

(** The state dict; a key not yet written is [None]. *)
Record FlowState := {
  query : string;
  segment_insight : option json_text;
  performance_analysis : option ToolOutput;
  strategy_generator : option string
}.

(** One key of the dict a node returns. *)
Inductive write :=
| set_segment_insight (seg_str : json_text)
| set_performance_analysis (res : ToolOutput)
| set_strategy_generator (res : string).

Definition key (w : write) : string :=
  match w with
  | set_segment_insight _ => "segment_insight"
  | set_performance_analysis _ => "performance_analysis"
  | set_strategy_generator _ => "strategy_generator"
  end.

(** The graph runtime merges what a node returns into the state. *)
Definition apply_write (state : FlowState) (w : write) : FlowState :=
  match w with
  | set_segment_insight j =>
      {| query := query state;
         segment_insight := Some j;
         performance_analysis := performance_analysis state;
         strategy_generator := strategy_generator state |}
  | set_performance_analysis p =>
      {| query := query state;
         segment_insight := segment_insight state;
         performance_analysis := Some p;
         strategy_generator := strategy_generator state |}
  | set_strategy_generator t =>
      {| query := query state;
         segment_insight := segment_insight state;
         performance_analysis := performance_analysis state;
         strategy_generator := Some t |}
  end.

Definition update (state : FlowState) (writes : list write) : FlowState :=
  fold_left apply_write writes state.

(** [state[k]] *)
Definition getitem {A} (k : string) (v : option A) : M A :=
  match v with
  | Some a => ret a
  | None => raise (KeyError k)
  end.

Definition node := FlowState -> M (list write).

Record StateGraph := {
  nodes : list (string * node);
  edges : list (string * string);
  entry_point : option string;
  finish_point : option string
}.

Definition empty_graph : StateGraph :=
  {| nodes := []; edges := []; entry_point := None; finish_point := None |}.

Definition add_node (name : string) (f : node) (g : StateGraph) : StateGraph :=
  {| nodes := nodes g ++ [(name, f)]; edges := edges g;
     entry_point := entry_point g; finish_point := finish_point g |}.

Definition add_edge (src dst : string) (g : StateGraph) : StateGraph :=
  {| nodes := nodes g; edges := edges g ++ [(src, dst)];
     entry_point := entry_point g; finish_point := finish_point g |}.

Definition set_entry_point (name : string) (g : StateGraph) : StateGraph :=
  {| nodes := nodes g; edges := edges g;
     entry_point := Some name; finish_point := finish_point g |}.

Definition set_finish_point (name : string) (g : StateGraph) : StateGraph :=
  {| nodes := nodes g; edges := edges g;
     entry_point := entry_point g; finish_point := Some name |}.

Fixpoint lookup {A} (k : string) (l : list (string * A)) : option A :=
  match l with
  | [] => None
  | (k', v) :: rest => if String.eqb k k' then Some v else lookup k rest
  end.

Definition is_finish (g : StateGraph) (name : string) : bool :=
  match finish_point g with
  | Some f => String.eqb f name
  | None => false
  end.

(** The compiled graph running from one node: the node is called with the
    state, what it returns is merged, and the edge out of it is followed;
    the finish point ends the run. [limit] is the runtime's bound on the
    number of steps. *)
Fixpoint run_from (g : StateGraph) (limit : nat) (name : string)
         (state : FlowState) : M FlowState :=
  match limit with
  | O => raise GraphRecursionError
  | S limit' =>
      match lookup name (nodes g) with
      | None => raise (KeyError name)
      | Some f =>
          (log (ev_enter name) ;;;
           writes <- f state ;;
           log (ev_return name) ;;;
           let state' := update state writes in
           if is_finish g name then ret state'
           else match lookup name (edges g) with
                | Some next => run_from g limit' next state'
                | None => ret state'
                end)%py
      end
  end.

Definition recursion_limit : nat := 25.

(** [workflow.compile().invoke(state)] *)
Definition invoke (g : StateGraph) (state : FlowState) : M FlowState :=
  match entry_point g with
  | Some name => run_from g recursion_limit name state
  | None => raise (ValueError "Graph must have an entrypoint")
  end.

Section WithCollaborators.

Context (df : list CampaignRow) (booster : Booster) (py : PyRuntime)
        (chain : LLMChain).

Definition segment_node_func (state : FlowState) : M (list write) :=
  let seg_str := SegmentInsight.segment_insight df (query state) in
  ret [set_segment_insight seg_str].

Definition performance_node_func (state : FlowState) : M (list write) :=
  (segment_json <- getitem "segment_insight" (segment_insight state) ;;
   res <- PerformanceAnalysis.performance_analysis booster py
            (query state) segment_json ;;
   ret [set_performance_analysis res])%py.

Definition strategy_node_func (state : FlowState) : M (list write) :=
  (pa <- getitem "performance_analysis" (performance_analysis state) ;;
   res <- StrategyGenerator.generate_strategy chain (query state) pa ;;
   ret [set_strategy_generator res])%py.

Definition workflow : StateGraph :=
  set_finish_point "strategy_generator"
    (add_edge "performance_analysis" "strategy_generator"
       (add_edge "segment_insight" "performance_analysis"
          (set_entry_point "segment_insight"
             (add_node "strategy_generator" strategy_node_func
                (add_node "performance_analysis" performance_node_func
                   (add_node "segment_insight" segment_node_func
                      empty_graph)))))).

(** [graph_app.invoke({"query": query})] *)
Definition graph_app (q : string) : M FlowState :=
  invoke workflow {| query := q; segment_insight := None;
                     performance_analysis := None;
                     strategy_generator := None |}.

End WithCollaborators.

End Flow.

(** ** main.py *)

Module Main.

Record RecommendResponse := {
  segment : list SegmentRecord;
  performance : RoiSummary;
  strategy : string
}.

Definition quota_message : string :=
  "⚠️ LLM token quota exhausted for this project. "
  ++ "Returning segment & performance analysis. "
  ++ "Please add quota or switch to a smaller model / lower max_new_tokens to enable strategy generation.".

Definition no_strategy_message : string :=
  "No strategy generated. Please refine your query.".

(** The test of the [if] of step 4. *)
Definition quota_reached (strategy_text : string) : bool :=
  PyStr.contains "token_quota_reached" (PyStr.lower strategy_text)
  || PyStr.contains "status code: 403" strategy_text.

(** Step 4 of [recommend]. *)
Definition final_strategy_text (strategy_text : string) : string :=
  if quota_reached strategy_text then quota_message
  else if String.eqb strategy_text "" then no_strategy_message
  else strategy_text.

(** Step 2: [json.loads] under [try], an error giving the empty list. *)
Definition seg_list (seg_json_str : json_text) : list SegmentRecord :=
  match seg_json_str with
  | JsonRecords records => records
  | NotJson _ => []
  end.

Definition get_default {A} (v : option A) (default : A) : A :=
  match v with
  | Some a => a
  | None => default
  end.

(** Step 3: the summary read with [perf.get], an absent analysis read as
    the empty dict. *)
Definition perf_obj (perf_raw : option ToolOutput) : RoiSummary :=
  match perf_raw with
  | Some out => roi_summary out
  | None => {| high_performers := []; low_performers := [];
               average_roi := None; top_features := "";
               projected_roi := None |}
  end.

Section WithCollaborators.

Context (df : list CampaignRow) (booster : Booster) (py : PyRuntime)
        (chain : LLMChain).

(** [recommend] with the JSON format: the views are not modelled. *)
Definition recommend (body_query : string) : M RecommendResponse :=
  let query := PyStr.strip body_query in
  if String.eqb query "" then raise (HTTPException 400 "query is empty")
  else
    (result <- Flow.graph_app df booster py chain query ;;
     let seg_json_str :=
       get_default (Flow.segment_insight result) (JsonRecords []) in
     let strategy_text := get_default (Flow.strategy_generator result) "" in
     ret {| segment := seg_list seg_json_str;
            performance := perf_obj (Flow.performance_analysis result);
            strategy := final_strategy_text strategy_text |})%py.

End WithCollaborators.

End Main.

(** ** The query's predicates, stated once

    What the specification calls the predicates derived from the query, as
    one test on a row; the filter of the source is compared with it below. *)

Module QueryPredicates.

Import SegmentInsight.

Definition keyword_holds (lq : string) (c : column) (r : CampaignRow)
           (keyword : string) : bool :=
  implb (PyStr.contains keyword lq) (matches c keyword r).

Definition dimension_holds (lq : string) (r : CampaignRow)
           (entry : column * list string) : bool :=
  forallb (keyword_holds lq (fst entry) r) (snd entry).

Definition satisfies (lq : string) (r : CampaignRow) : bool :=
  forallb (dimension_holds lq r) keyword_map
  && implb (PyStr.contains "low roi" lq) (low_roi r)
  && implb (PyStr.contains "high cpc" lq) (high_cpc r).


End QueryPredicates.

(** [l1] is [l2] with some elements left out, the others in their order. *)
Inductive subseq {A : Type} : list A -> list A -> Prop :=
| subseq_nil : subseq [] []
| subseq_skip x l1 l2 : subseq l1 l2 -> subseq l1 (x :: l2)
| subseq_keep x l1 l2 : subseq l1 l2 -> subseq (x :: l1) (x :: l2).



(** ** Sample data for the worked examples *)

Module Sample.

Definition row bu ch rg r c cpc m : CampaignRow :=
  {| selected := {| business_unit := bu; channel := ch; region := rg;
                    roi := r; clicks := c; cost_per_click := cpc; cpm := m |};
     other_columns := [("campaign_id", "c")] |}.

Definition df : list CampaignRow :=
  [ row "Watson" "Paid Search" "Europe" 2.5 100 2.5 10;
    row "Cloud" "Display" "Europe" 0.1 250 1.5 8;
    row "Cloud" "Display" "Asia" 0.1 40 3.5 12 ]%float.

(** A model answering 1.5 for every row. *)
Definition booster : Booster :=
  {| predict := fun rows => Some (map (fun _ => 1.5%float) rows);
     get_score := [("cpm", 1.0%float); ("clicks", 3.0%float)] |}.

(** A model whose every call raises. *)
Definition failing_booster : Booster :=
  {| predict := fun _ => None; get_score := [] |}.

(** A model answering the segment and raising on a single row. *)
Definition booster_failing_on_one : Booster :=
  {| predict := fun rows =>
       match rows with
       | [_] => None
       | _ => Some (map (fun _ => 1.5%float) rows)
       end;
     get_score := [("cpm", 1.0%float)] |}.

(** Left-to-right mean; rounding and printing left out. *)
Definition py : PyRuntime :=
  {| series_mean := fun l =>
       (fold_left PrimFloat.add l 0 / Num.float_of_Z (Z.of_nat (List.length l)))%float;
     round_ := fun x _ => x;
     str_float := fun _ => "#" |}.

Definition chain : LLMChain :=
  {| run := fun q _ => inr ("Spend more on " ++ q)%string |}.

Definition europe : list SegmentRecord :=
  [ selected (row "Watson" "Paid Search" "Europe" 2.5 100 2.5 10);
    selected (row "Cloud" "Display" "Europe" 0.1 250 1.5 8) ]%float.

End Sample.

(** ** Measures of texts and of call logs *)

Module Text.



(** Does not begin with whitespace. *)
Definition no_leading_space (s : string) : bool :=
  match s with
  | EmptyString => true
  | String c _ => negb (PyStr.is_space c)
  end.



End Text.

Module Calls.

Definition is_predict (e : event) : bool :=
  match e with ev_predict _ => true | _ => false end.

Definition is_get_score (e : event) : bool :=
  match e with ev_get_score => true | _ => false end.

Definition is_chain_run (e : event) : bool :=
  match e with ev_chain_run _ => true | _ => false end.

Definition count (p : event -> bool) (t : list event) : nat :=
  List.length (filter p t).

End Calls.

(** The order a ranking by gain keeps between neighbours. *)
Definition not_above (a b : string * float) : Prop :=
  (snd a <? snd b)%float = false.

(** * Properties *)

(** ** Lists and strings *)

Lemma filter_filter {A} (p q : A -> bool) (l : list A) :
  filter p (filter q l) = filter (fun x => q x && p x) l.
Proof.
  induction l as [|x l IH]; simpl; [reflexivity|].
  destruct (q x); simpl; [destruct (p x)|]; now rewrite IH.
Qed.

Lemma filter_true {A} (l : list A) : filter (fun _ => true) l = l.
Proof. induction l as [|x l IH]; simpl; congruence. Qed.

Lemma filter_nil_iff {A} (p : A -> bool) (l : list A) :
  filter p l = [] <-> forall x, In x l -> p x = false.
Proof.
  induction l as [|x l IH]; simpl.
  - split; [intros _ y []|reflexivity].
  - destruct (p x) eqn:E.
    + split; [discriminate|].
      intros H. specialize (H x (or_introl eq_refl)). congruence.
    + rewrite IH. split.
      * intros H y [<-|Hy]; auto.
      * intros H y Hy. apply H. now right.
Qed.

Lemma subseq_filter {A} (p : A -> bool) (l : list A) : subseq (filter p l) l.
Proof.
  induction l as [|x l IH]; simpl; [constructor|].
  destruct (p x); constructor; assumption.
Qed.

Lemma subseq_map {A B} (f : A -> B) (l1 l2 : list A) :
  subseq l1 l2 -> subseq (map f l1) (map f l2).
Proof. induction 1; simpl; constructor; assumption. Qed.

(** ** The segment filter *)

Section SegmentFilter.

Import SegmentInsight QueryPredicates.

Variable df : list CampaignRow.

Lemma filter_keywords_filter lq c keywords (l : list CampaignRow) :
  filter_keywords lq c keywords l
  = filter (fun r => forallb (keyword_holds lq c r) keywords) l.
Proof.
  revert l. induction keywords as [|k ks IH]; intros l; simpl.
  - now rewrite filter_true.
  - rewrite IH. unfold keyword_holds at 2.
    destruct (PyStr.contains k lq); simpl.
    + now rewrite filter_filter.
    + reflexivity.
Qed.

Lemma filter_columns_filter lq km (l : list CampaignRow) :
  filter_columns lq km l = filter (fun r => forallb (dimension_holds lq r) km) l.
Proof.
  revert l. induction km as [|[c ks] km IH]; intros l; simpl.
  - now rewrite filter_true.
  - now rewrite IH, filter_keywords_filter, filter_filter.
Qed.

Lemma filter_performance_filter lq (l : list CampaignRow) :
  filter_performance lq l
  = filter (fun r => implb (PyStr.contains "low roi" lq) (low_roi r)
                     && implb (PyStr.contains "high cpc" lq) (high_cpc r)) l.
Proof.
  unfold filter_performance.
  destruct (PyStr.contains "low roi" lq), (PyStr.contains "high cpc" lq); simpl.
  - now rewrite filter_filter.
  - apply filter_ext. intros r. now rewrite andb_true_r.
  - reflexivity.
  - now rewrite filter_true.
Qed.

(** The loops of the source keep exactly the rows that pass the query's
    predicates. *)
Lemma filtered_rows_filter query :
  filtered_rows df query = filter (satisfies (PyStr.lower query)) df.
Proof.
  unfold filtered_rows.
  rewrite filter_performance_filter, filter_columns_filter, filter_filter.
  apply filter_ext. intros r. unfold satisfies. now rewrite andb_assoc.
Qed.

(** Both exits of the function give the records of the working set. *)
Lemma segment_insight_records query :
  segment_insight df query = JsonRecords (map selected (filtered_rows df query)).
Proof.
  unfold segment_insight, empty_segment, to_json.
  now destruct (filtered_rows df query).
Qed.

Lemma satisfies_keyword lq r c keywords keyword :
  satisfies lq r = true ->
  In (c, keywords) keyword_map -> In keyword keywords ->
  PyStr.contains keyword lq = true ->
  PyStr.lower (get c r) = keyword.
Proof.
  unfold satisfies. rewrite !andb_true_iff. intros [[H _] _] Hc Hk Hq.
  rewrite forallb_forall in H. specialize (H _ Hc).
  unfold dimension_holds in H. rewrite forallb_forall in H.
  specialize (H _ Hk). unfold keyword_holds in H. simpl in H.
  rewrite Hq in H. simpl in H. now apply String.eqb_eq.
Qed.





(** C7. When two keywords of one dimension both occur in the query, the
    two equality filters are applied one after the other to the working
    set: every record returned equals both keywords on that column, so the
    result is the empty segment when no row of the dataset does; and an
    empty working set always gives the literal empty segment. *)
Theorem same_dimension_keywords_intersect
        (query : string) (c : column) (keywords : list string) (k1 k2 : string) :
  let lq := PyStr.lower query in
  In (c, keywords) keyword_map -> In k1 keywords -> In k2 keywords ->
  PyStr.contains k1 lq = true -> PyStr.contains k2 lq = true ->
  (forall row, In row (filtered_rows df query) ->
     PyStr.lower (get c row) = k1 /\ PyStr.lower (get c row) = k2)
  /\ ((forall row, In row df ->
         ~ (PyStr.lower (get c row) = k1 /\ PyStr.lower (get c row) = k2)) ->
      segment_insight df query = empty_segment)
  /\ (filtered_rows df query = [] -> segment_insight df query = empty_segment).
Proof.
  intros lq Hc H1 H2 Hq1 Hq2.
  assert (Hboth : forall row, satisfies lq row = true ->
            PyStr.lower (get c row) = k1 /\ PyStr.lower (get c row) = k2).
  { intros row Hsat. split; eapply satisfies_keyword; eauto. }
  split; [|split].
  - intros row Hrow. rewrite filtered_rows_filter in Hrow.
    apply filter_In in Hrow. now apply Hboth.
  - intros Hnone. rewrite segment_insight_records, filtered_rows_filter.
    fold lq. replace (filter (satisfies lq) df) with (@nil CampaignRow);
      [reflexivity|].
    symmetry. apply filter_nil_iff. intros row Hrow.
    destruct (satisfies lq row) eqn:E; [|reflexivity].
    exfalso. apply (Hnone row Hrow). now apply Hboth.
  - intros Hempty. rewrite segment_insight_records, Hempty. reflexivity.
Qed.


End SegmentFilter.


Lemma same_dimension_keywords_intersect_witness :
  SegmentInsight.segment_insight Sample.df "Europe or Asia"
  = SegmentInsight.empty_segment.
Proof.
  refine (proj1 (proj2 (same_dimension_keywords_intersect Sample.df
            "Europe or Asia" SegmentInsight.col_region
            ["north america"; "europe"; "asia"] "europe" "asia" _ _ _ _ _)) _).
  - left. reflexivity.
  - right. left. reflexivity.
  - right. right. left. reflexivity.
  - reflexivity.
  - reflexivity.
  - intros row Hrow [H1 H2]. rewrite H1 in H2. discriminate.
Defined.



(** ** Floating-point comparisons *)

Lemma gt_two_not_lt_one (x : float) :
  (2.0 <? x)%float = true -> (x <? 1.0)%float = false.
Proof.
  rewrite !ltb_spec.
  replace (Prim2SF 2.0) with (S754_finite false 4503599627370496 (-51))
    by reflexivity.
  replace (Prim2SF 1.0) with (S754_finite false 4503599627370496 (-52))
    by reflexivity.
  destruct (Prim2SF x) as [s|s| |s m e]; unfold SFltb, SFcompare.
  - destruct s; discriminate.
  - destruct s; [discriminate|reflexivity].
  - reflexivity.
  - destruct s; [discriminate|].
    destruct (Z.compare_spec (-51) e) as [<-|Hlt|Hgt].
    + reflexivity.
    + intros _. destruct (Z.compare_spec e (-52)); [lia|lia|reflexivity].
    + discriminate.
Qed.

(** ** The ROI predictor *)

Section Predictor.

Import PerformanceAnalysis.

Variables (booster : Booster) (py : PyRuntime).

(** The frame the projection hands to the model for a budget. *)
Let synthetic_of (budget : float) (segment_df : list SegmentRecord) :=
  synthetic budget (series_mean py (map cost_per_click segment_df))
            (series_mean py (map cpm segment_df)).

Lemma project_unparsed amount_str segment_df :
  Num.py_float amount_str = None ->
  try_except (project booster py amount_str segment_df) (fun _ => ret None)
  = (Ok None, []).
Proof. unfold project. intros ->. reflexivity. Qed.

Lemma project_predicted amount_str segment_df budget p rest :
  Num.py_float amount_str = Some budget ->
  predict booster (synthetic_of budget segment_df) = Some (p :: rest) ->
  try_except (project booster py amount_str segment_df) (fun _ => ret None)
  = (Ok (Some (round_ py p 4)), [ev_predict (synthetic_of budget segment_df)]).
Proof.
  unfold project, synthetic_of, booster_predict. intros -> H.
  cbn [bind ret log]. rewrite H. reflexivity.
Qed.

Lemma project_failed amount_str segment_df budget :
  Num.py_float amount_str = Some budget ->
  predict booster (synthetic_of budget segment_df) = None
  \/ predict booster (synthetic_of budget segment_df) = Some [] ->
  try_except (project booster py amount_str segment_df) (fun _ => ret None)
  = (Ok None, [ev_predict (synthetic_of budget segment_df)]).
Proof.
  unfold project, synthetic_of, booster_predict. intros -> [H|H];
    cbn [bind ret log]; rewrite H; reflexivity.
Qed.

(** The projection step always returns. *)
Lemma optional_projection_returns query segment_df :
  exists p, result (optional_projection booster py query segment_df) = Ok p.
Proof.
  unfold optional_projection. destruct (re_search query) as [g|]; [|now exists None].
  destruct (Num.py_float (PyStr.remove_commas g)) as [budget|] eqn:E.
  - destruct (predict booster (synthetic_of budget segment_df)) as [[|p rest]|] eqn:P.
    + rewrite (project_failed _ _ _ E (or_intror P)). now exists None.
    + rewrite (project_predicted _ _ _ _ _ E P). now eexists.
    + rewrite (project_failed _ _ _ E (or_introl P)). now exists None.
  - rewrite (project_unparsed _ _ E). now exists None.
Qed.

(** The run on a non-empty segment the model answers. *)
Lemma analyze_nonempty query segment_df predictions :
  segment_df <> [] ->
  predict booster (map model_input segment_df) = Some predictions ->
  List.length predictions = List.length segment_df ->
  _predict_and_explain booster py query (JsonRecords segment_df)
  = (match result (optional_projection booster py query segment_df) with
     | Ok projected =>
         Ok {| roi_summary :=
                 {| high_performers :=
                      map (format_campaign py) (filter is_high segment_df);
                    low_performers :=
                      map (format_campaign py) (filter is_low segment_df);
                    average_roi := Some (round_ py (series_mean py predictions) 4);
                    top_features :=
                      String.concat ", " (map (format_feature py)
                                              (sorted_desc (get_score booster)));
                    projected_roi := projected |} |}
     | Raise e => Raise e
     end,
     [ev_predict (map model_input segment_df); ev_get_score]
       ++ trace (optional_projection booster py query segment_df)).
Proof.
  intros Hne Hp Hlen. unfold _predict_and_explain, read_json.
  destruct segment_df as [|r rs]; [congruence|].
  cbn [bind ret is_empty]. unfold booster_predict, assign_column, booster_get_score.
  rewrite Hp. cbn [bind ret log app]. rewrite Hlen, Nat.eqb_refl.
  destruct (optional_projection booster py query (r :: rs)) as [[p|e] t];
    cbn [bind ret log app result trace fst snd]; rewrite ?app_nil_r; reflexivity.
Qed.

(** The three outcomes of the projection step, by what the pattern finds. *)
Lemma projection_absent_without_match query segment_df :
  re_search query = None ->
  optional_projection booster py query segment_df = (Ok None, []).
Proof. unfold optional_projection. now intros ->. Qed.

Lemma projection_absent_unparsed query segment_df group1 :
  re_search query = Some group1 ->
  Num.py_float (PyStr.remove_commas group1) = None ->
  optional_projection booster py query segment_df = (Ok None, []).
Proof.
  unfold optional_projection. intros -> H. now apply project_unparsed.
Qed.

Lemma projection_present query segment_df group1 budget p rest :
  re_search query = Some group1 ->
  Num.py_float (PyStr.remove_commas group1) = Some budget ->
  predict booster (synthetic_of budget segment_df) = Some (p :: rest) ->
  optional_projection booster py query segment_df
  = (Ok (Some (round_ py p 4)), [ev_predict (synthetic_of budget segment_df)]).
Proof.
  unfold optional_projection. intros -> H1 H2.
  exact (project_predicted _ _ _ _ _ H1 H2).
Qed.

Lemma projection_absent_on_failure query segment_df group1 budget :
  re_search query = Some group1 ->
  Num.py_float (PyStr.remove_commas group1) = Some budget ->
  predict booster (synthetic_of budget segment_df) = None
  \/ predict booster (synthetic_of budget segment_df) = Some [] ->
  optional_projection booster py query segment_df
  = (Ok None, [ev_predict (synthetic_of budget segment_df)]).
Proof.
  unfold optional_projection. intros -> H1 H2. now apply project_failed.
Qed.

(** X22. The fields other than projected_roi do not depend on the query, so
    no outcome of the projection step touches them: two runs on one segment
    that return agree on the performer lists, the average and the
    explanation. *)
Lemma summary_independent_of_projection
      (q1 q2 : string) (segment_json : json_text) (out1 out2 : ToolOutput) :
  result (_predict_and_explain booster py q1 segment_json) = Ok out1 ->
  result (_predict_and_explain booster py q2 segment_json) = Ok out2 ->
  high_performers (roi_summary out1) = high_performers (roi_summary out2)
  /\ low_performers (roi_summary out1) = low_performers (roi_summary out2)
  /\ average_roi (roi_summary out1) = average_roi (roi_summary out2)
  /\ top_features (roi_summary out1) = top_features (roi_summary out2).
Proof.
  destruct segment_json as [records|text]; [|discriminate].
  destruct records as [|r rs].
  { cbn. intros [= <-] [= <-]. now repeat split. }
  unfold _predict_and_explain, read_json. cbn [bind ret is_empty].
  unfold booster_predict, assign_column, booster_get_score.
  destruct (predict booster (map model_input (r :: rs))) as [predictions|];
    [|discriminate].
  cbn [bind ret log app].
  destruct (Nat.eqb (List.length predictions) (List.length (r :: rs)));
    [|discriminate].
  cbn [bind ret log app].
  destruct (optional_projection booster py q1 (r :: rs)) as [[p1|e1] t1];
    destruct (optional_projection booster py q2 (r :: rs)) as [[p2|e2] t2];
    cbn [bind ret result fst]; try discriminate.
  intros [= <-] [= <-]. now repeat split.
Qed.

(** C2. On the empty segment the summary has empty performer lists, no
    average, an empty explanation and no projection, and no call reaches
    the model: the log of calls is empty. *)
Theorem empty_segment_skips_model (query : string) :
  result (_predict_and_explain booster py query (JsonRecords []))
  = Ok {| roi_summary := {| high_performers := [];
                            low_performers := [];
                            average_roi := None;
                            top_features := "";
                            projected_roi := None |} |}
  /\ trace (_predict_and_explain booster py query (JsonRecords [])) = [].
Proof. split; reflexivity. Qed.

(** C3. On a non-empty segment for which the model gives one prediction per
    record, average_roi is the mean of those predictions rounded to 4
    places; the rows handed to the model are the records' clicks,
    cost_per_click and cpm, in that order. *)
Theorem average_roi_is_rounded_mean
        (query : string) (segment_df : list SegmentRecord) (predictions : list float) :
  segment_df <> [] ->
  predict booster (map model_input segment_df) = Some predictions ->
  List.length predictions = List.length segment_df ->
  (exists out,
     result (_predict_and_explain booster py query (JsonRecords segment_df)) = Ok out
     /\ average_roi (roi_summary out)
        = Some (round_ py (series_mean py predictions) 4))
  /\ hd_error (trace (_predict_and_explain booster py query (JsonRecords segment_df)))
     = Some (ev_predict (map model_input segment_df))
  /\ (forall r, model_input r
                = [ ("clicks", Int (clicks r));
                    ("cost_per_click", Float (cost_per_click r));
                    ("cpm", Float (cpm r)) ]).
Proof.
  intros Hne Hp Hlen. rewrite (analyze_nonempty _ _ _ Hne Hp Hlen).
  destruct (optional_projection_returns query segment_df) as [p Hproj].
  rewrite Hproj. cbn [result trace fst snd]. split; [|split].
  - eexists. split; reflexivity.
  - reflexivity.
  - reflexivity.
Qed.

(** C4. On a non-empty segment the model answers, high_performers lists the
    records whose recorded roi is above 2.0 and low_performers those whose
    recorded roi is below 1.0, each written as business_unit, channel and
    region separated by bars, an arrow, and the roi rounded to 2 places; no
    record is in both. *)
Theorem performers_by_recorded_roi
        (query : string) (segment_df : list SegmentRecord) (predictions : list float) :
  segment_df <> [] ->
  predict booster (map model_input segment_df) = Some predictions ->
  List.length predictions = List.length segment_df ->
  exists out high low,
    result (_predict_and_explain booster py query (JsonRecords segment_df)) = Ok out
    /\ high_performers (roi_summary out) = map (format_campaign py) high
    /\ low_performers (roi_summary out) = map (format_campaign py) low
    /\ subseq high segment_df /\ subseq low segment_df
    /\ (forall r, In r high <-> In r segment_df /\ (2.0 <? roi r)%float = true)
    /\ (forall r, In r low <-> In r segment_df /\ (roi r <? 1.0)%float = true)
    /\ (forall r, ~ (In r high /\ In r low))
    /\ (forall r, format_campaign py r
                  = (business_unit r ++ " | " ++ channel r ++ " | " ++ region r
                     ++ " → ROI: " ++ str_float py (round_ py (roi r) 2))%string).
Proof.
  intros Hne Hp Hlen. rewrite (analyze_nonempty _ _ _ Hne Hp Hlen).
  destruct (optional_projection_returns query segment_df) as [p Hproj].
  rewrite Hproj. cbn [result fst].
  eexists. exists (filter is_high segment_df), (filter is_low segment_df).
  split; [reflexivity|]. cbn [roi_summary high_performers low_performers].
  split; [reflexivity|]. split; [reflexivity|].
  split; [apply subseq_filter|]. split; [apply subseq_filter|].
  split; [intros r; exact (filter_In is_high r segment_df)|].
  split; [intros r; exact (filter_In is_low r segment_df)|].
  split; [|reflexivity].
  intros r [Hh Hl]. apply filter_In in Hh, Hl.
  destruct Hh as [_ Hh], Hl as [_ Hl]. unfold is_high, is_low, Num.gt, Num.lt in *.
  apply gt_two_not_lt_one in Hh. congruence.
Qed.

(** C5, at the query "display, $20,000". The pattern's first match is the
    comma after "display"; with the commas removed nothing is left to read
    as a number, and the projection is absent for every model and segment,
    although the query names the amount $20,000. *)
Theorem projection_absent_after_leading_comma (segment_df : list SegmentRecord) :
  re_search "display, $20,000" = Some ","
  /\ optional_projection booster py "display, $20,000" segment_df = (Ok None, []).
Proof. split; reflexivity. Qed.

(** C6, at a segment text that is no JSON. Reading it raises, and the
    tool has no handler: the error leaves the function, before any call to
    the model. The response builder of main.py reads the same text as the
    empty list. *)
Theorem unparseable_segment_raises (query text : string) :
  _predict_and_explain booster py query (NotJson text)
  = (Raise (ValueError "Expected object or value"), [])
  /\ Main.seg_list (NotJson text) = [].
Proof. split; reflexivity. Qed.

End Predictor.

Lemma average_roi_is_rounded_mean_witness :
  exists out,
    result (PerformanceAnalysis._predict_and_explain Sample.booster Sample.py
              "best channels in Europe" (JsonRecords Sample.europe)) = Ok out
    /\ average_roi (roi_summary out) = Some 1.5%float.
Proof.
  refine (proj1 (average_roi_is_rounded_mean Sample.booster Sample.py
            "best channels in Europe" Sample.europe [1.5; 1.5]%float _ _ _)).
  - discriminate.
  - reflexivity.
  - reflexivity.
Defined.

Lemma performers_by_recorded_roi_witness :
  exists out high low,
    result (PerformanceAnalysis._predict_and_explain Sample.booster Sample.py
              "best channels in Europe" (JsonRecords Sample.europe)) = Ok out
    /\ high_performers (roi_summary out)
       = map (PerformanceAnalysis.format_campaign Sample.py) high
    /\ low_performers (roi_summary out)
       = map (PerformanceAnalysis.format_campaign Sample.py) low.
Proof.
  destruct (performers_by_recorded_roi Sample.booster Sample.py
              "best channels in Europe" Sample.europe [1.5; 1.5]%float)
    as (out & high & low & H1 & H2 & H3 & _).
  - discriminate.
  - reflexivity.
  - reflexivity.
  - exists out, high, low. auto.
Defined.

(** A model that raises on the one-row frame: the projection is absent and
    the rest of the summary is as it is without a budget in the query. *)
Example projection_failure_keeps_summary :
  result (PerformanceAnalysis._predict_and_explain Sample.booster_failing_on_one
            Sample.py "display $20,000" (JsonRecords Sample.europe))
  = result (PerformanceAnalysis._predict_and_explain Sample.booster_failing_on_one
              Sample.py "display" (JsonRecords Sample.europe))
  /\ exists out,
       result (PerformanceAnalysis._predict_and_explain Sample.booster_failing_on_one
                 Sample.py "display $20,000" (JsonRecords Sample.europe)) = Ok out
       /\ projected_roi (roi_summary out) = None
       /\ average_roi (roi_summary out) = Some 1.5%float.
Proof. split; [reflexivity|]. eexists. split; [reflexivity|]. split; reflexivity. Qed.

(** With the amount first in the query, the same model projects. *)
Example projection_present_without_comma :
  PerformanceAnalysis.optional_projection Sample.booster Sample.py
    "display $20,000" Sample.europe
  = (Ok (Some 1.5%float),
     [ev_predict [[("clicks", Float 10000); ("cost_per_click", Float 2);
                   ("cpm", Float 9)]]]).
Proof. vm_compute. reflexivity. Qed.

(** ** The pipeline *)

Section Pipeline.

Variables (df : list CampaignRow) (booster : Booster) (py : PyRuntime)
          (chain : LLMChain).


Lemma generate_strategy_returns (query : string) (pa : ToolOutput) :
  exists g, StrategyGenerator.generate_strategy chain query pa
            = (Ok g, [ev_chain_run query]).
Proof.
  unfold StrategyGenerator.generate_strategy.
  destruct (run chain query pa) as [e|text]; eexists; reflexivity.
Qed.

(** The run in which the second stage returns. *)
Lemma graph_app_completes (q : string) (pa : ToolOutput) (t2 : list event) (g : string) :
  PerformanceAnalysis.performance_analysis booster py q
    (SegmentInsight.segment_insight df q) = (Ok pa, t2) ->
  result (StrategyGenerator.generate_strategy chain q pa) = Ok g ->
  Flow.graph_app df booster py chain q
  = (Ok {| Flow.query := q;
           Flow.segment_insight := Some (SegmentInsight.segment_insight df q);
           Flow.performance_analysis := Some pa;
           Flow.strategy_generator := Some g |},
     [ev_enter "segment_insight"; ev_return "segment_insight";
      ev_enter "performance_analysis"]
       ++ t2
       ++ [ev_return "performance_analysis"; ev_enter "strategy_generator";
           ev_chain_run q; ev_return "strategy_generator"]).
Proof.
  intros H2 H3.
  destruct (generate_strategy_returns q pa) as [g' Hg].
  rewrite Hg in H3. injection H3 as ->.
  unfold Flow.graph_app, Flow.invoke, Flow.workflow.
  cbn -[SegmentInsight.segment_insight PerformanceAnalysis.performance_analysis
        StrategyGenerator.generate_strategy].
  rewrite H2.
  cbn -[SegmentInsight.segment_insight PerformanceAnalysis.performance_analysis
        StrategyGenerator.generate_strategy].
  rewrite Hg.
  cbn -[SegmentInsight.segment_insight]. rewrite ?app_nil_r.
  reflexivity.
Qed.

(** The run in which the second stage raises. *)
Lemma graph_app_aborts (q : string) (e : exn) (t2 : list event) :
  PerformanceAnalysis.performance_analysis booster py q
    (SegmentInsight.segment_insight df q) = (Raise e, t2) ->
  Flow.graph_app df booster py chain q
  = (Raise e,
     [ev_enter "segment_insight"; ev_return "segment_insight";
      ev_enter "performance_analysis"] ++ t2).
Proof.
  intros H2.
  unfold Flow.graph_app, Flow.invoke, Flow.workflow.
  cbn -[SegmentInsight.segment_insight PerformanceAnalysis.performance_analysis
        StrategyGenerator.generate_strategy].
  rewrite H2. cbn. rewrite ?app_nil_r. reflexivity.
Qed.






End Pipeline.



(** A model that raises on the segment stops the run inside the second
    stage. *)
Example model_failure_stops_pipeline :
  Flow.graph_app Sample.df Sample.failing_booster Sample.py Sample.chain
    "high cpc in Europe"
  = (Raise XGBoostError,
     [ev_enter "segment_insight"; ev_return "segment_insight";
      ev_enter "performance_analysis";
      ev_predict [[("clicks", Int 100); ("cost_per_click", Float 2.5);
                   ("cpm", Float 10)]]]).
Proof. vm_compute. reflexivity. Qed.

(** * Further properties of the code *)

(** ** Texts *)

Lemma prefix_iff (a b : string) :
  String.prefix a b = true <-> exists post, b = (a ++ post)%string.
Proof.
  revert b. induction a as [|c a IH]; intros b; simpl.
  - split; [intros _; now exists b|]. intros _. now destruct b.
  - destruct b as [|d b]; simpl.
    + split; [discriminate|]. intros [post H]. discriminate.
    + destruct (ascii_dec c d) as [->|Hne].
      * rewrite IH. split; intros [post H]; exists post; congruence.
      * split; [discriminate|]. intros [post H]. congruence.
Qed.

(** [needle in hay]: the hay is some text, the needle, and some text. *)
Lemma contains_iff (needle hay : string) :
  PyStr.contains needle hay = true
  <-> exists pre post, hay = (pre ++ needle ++ post)%string.
Proof.
  induction hay as [|c hay IH].
  - cbn [PyStr.contains]. rewrite orb_false_r, prefix_iff. split.
    + intros [post H]. now exists EmptyString, post.
    + intros (pre & post & H). destruct pre; [now exists post|discriminate].
  - cbn [PyStr.contains]. rewrite orb_true_iff, prefix_iff, IH. split.
    + intros [[post H]|(pre & post & H)].
      * now exists EmptyString, post.
      * exists (String c pre), post. simpl. now rewrite H.
    + intros (pre & post & H). destruct pre as [|d pre].
      * left. now exists post.
      * right. exists pre, post. simpl in H. congruence.
Qed.

Lemma lower_app (a b : string) :
  PyStr.lower (a ++ b) = (PyStr.lower a ++ PyStr.lower b)%string.
Proof. induction a as [|c a IH]; simpl; congruence. Qed.






(** ** The request handler *)

Section Requests.

Variables (df : list CampaignRow) (booster : Booster) (py : PyRuntime)
          (chain : LLMChain).



End Requests.


(** ** The segment filter, further *)

Section SegmentFilterFurther.

Import SegmentInsight QueryPredicates.

Variable df : list CampaignRow.



(** X3. A keyword restricts the segment wherever it stands in the query,
    inside a longer word too, and in any letter case: when the query is
    some text, a word whose lower-cased form is a keyword of a column, and
    some text, every record returned has that keyword on that column. *)
Theorem keyword_anywhere_restricts
        (pre w post : string) (c : column) (keywords : list string) :
  In (c, keywords) keyword_map -> In (PyStr.lower w) keywords ->
  forall records,
    segment_insight df (pre ++ w ++ post) = JsonRecords records ->
    forall r, In r records -> PyStr.lower (get c r) = PyStr.lower w.
Proof.
  intros Hc Hk records Heq r Hr.
  rewrite segment_insight_records in Heq. injection Heq as <-.
  apply in_map_iff in Hr. destruct Hr as (row & <- & Hrow).
  rewrite filtered_rows_filter in Hrow. apply filter_In in Hrow.
  destruct Hrow as [_ Hsat].
  apply (satisfies_keyword _ _ c keywords (PyStr.lower w) Hsat Hc Hk).
  rewrite !lower_app. apply contains_iff. now eexists _, _.
Qed.

(** X4. Two different keywords of one column in a query leave nothing, for
    every dataset: no value equals both. *)
Theorem two_keywords_of_a_column_give_empty_segment
        (query : string) (c : column) (keywords : list string) (k1 k2 : string) :
  In (c, keywords) keyword_map -> In k1 keywords -> In k2 keywords ->
  k1 <> k2 ->
  PyStr.contains k1 (PyStr.lower query) = true ->
  PyStr.contains k2 (PyStr.lower query) = true ->
  segment_insight df query = JsonRecords [].
Proof.
  intros Hc H1 H2 Hne Hq1 Hq2.
  rewrite segment_insight_records, filtered_rows_filter.
  replace (filter (satisfies (PyStr.lower query)) df) with (@nil CampaignRow);
    [reflexivity|].
  symmetry. apply filter_nil_iff. intros row _.
  destruct (satisfies (PyStr.lower query) row) eqn:E; [|reflexivity].
  exfalso. apply Hne.
  rewrite <- (satisfies_keyword _ _ c keywords k1 E Hc H1 Hq1).
  apply (satisfies_keyword _ _ c keywords k2 E Hc H2 Hq2).
Qed.

End SegmentFilterFurther.

(** X5. Rows are judged one by one: the segment of two datasets put end to
    end is the two segments put end to end, and filtering the rows kept
    once more by the same query keeps them all. *)
Theorem segment_is_rowwise_and_idempotent
        (df1 df2 : list CampaignRow) (query : string) :
  Main.seg_list (SegmentInsight.segment_insight (df1 ++ df2) query)
  = Main.seg_list (SegmentInsight.segment_insight df1 query)
      ++ Main.seg_list (SegmentInsight.segment_insight df2 query)
  /\ SegmentInsight.filtered_rows (SegmentInsight.filtered_rows df1 query) query
     = SegmentInsight.filtered_rows df1 query.
Proof.
  rewrite !segment_insight_records. cbn [Main.seg_list].
  rewrite !filtered_rows_filter. split.
  - now rewrite filter_app, map_app.
  - rewrite filter_filter. apply filter_ext. intros r. apply andb_diag.
Qed.


Lemma keyword_anywhere_restricts_witness :
  PyStr.lower (region (Sample.row "Cloud" "Display" "Asia" 0.1 40 3.5 12)) = "asia".
Proof.
  apply (keyword_anywhere_restricts Sample.df "the Eur" "ASIA" "n market"
           SegmentInsight.col_region ["north america"; "europe"; "asia"]
           (or_introl eq_refl) (or_intror (or_intror (or_introl eq_refl)))
           [selected (Sample.row "Cloud" "Display" "Asia" 0.1 40 3.5 12)]).
  - reflexivity.
  - left. reflexivity.
Defined.

Lemma two_keywords_of_a_column_give_empty_segment_witness :
  SegmentInsight.segment_insight Sample.df "paid search or paid social"
  = JsonRecords [].
Proof.
  apply (two_keywords_of_a_column_give_empty_segment Sample.df
           "paid search or paid social" SegmentInsight.col_channel
           ["display"; "paid search"; "paid social"] "paid search" "paid social").
  - right. right. left. reflexivity.
  - right. left. reflexivity.
  - right. right. left. reflexivity.
  - discriminate.
  - reflexivity.
  - reflexivity.
Defined.

(** ** The budget pattern *)

Section BudgetPattern.

Import PerformanceAnalysis.










Variables (booster : Booster) (py : PyRuntime).


(** X8. The projection step never raises, whatever the model does: it
    returns a value or nothing, after at most one call to predict; a value
    is returned only when that call gave a prediction, of which it is the
    first, rounded to 4 places. *)
Theorem projection_never_raises (query : string) (segment_df : list SegmentRecord) :
  exists projected,
    result (optional_projection booster py query segment_df) = Ok projected
    /\ (trace (optional_projection booster py query segment_df) = []
        \/ exists rows,
             trace (optional_projection booster py query segment_df)
             = [ev_predict rows]
             /\ (forall v, projected = Some v ->
                   exists p rest, predict booster rows = Some (p :: rest)
                                  /\ v = round_ py p 4))
    /\ (trace (optional_projection booster py query segment_df) = [] ->
        projected = None).
Proof.
  unfold optional_projection.
  destruct (re_search query) as [g|]; [|exists None; cbn; auto].
  destruct (Num.py_float (PyStr.remove_commas g)) as [budget|] eqn:E.
  - destruct (predict booster
                (synthetic budget
                   (series_mean py (map cost_per_click segment_df))
                   (series_mean py (map cpm segment_df))))
      as [[|p rest]|] eqn:P.
    + rewrite (project_failed booster py _ _ _ E (or_intror P)).
      exists None. cbn. split; [reflexivity|]. split; [|discriminate].
      right. eexists. split; [reflexivity|]. discriminate.
    + rewrite (project_predicted booster py _ _ _ _ _ E P).
      eexists. cbn. split; [reflexivity|]. split; [|discriminate].
      right. eexists. split; [reflexivity|].
      intros v [= <-]. now exists p, rest.
    + rewrite (project_failed booster py _ _ _ E (or_introl P)).
      exists None. cbn. split; [reflexivity|]. split; [|discriminate].
      right. eexists. split; [reflexivity|]. discriminate.
  - rewrite (project_unparsed booster py _ _ E). exists None. cbn. auto.
Qed.


End BudgetPattern.


Lemma projection_never_raises_witness :
  exists projected,
    result (PerformanceAnalysis.optional_projection Sample.failing_booster Sample.py
              "budget $20,000" Sample.europe) = Ok projected.
Proof.
  destruct (projection_never_raises Sample.failing_booster Sample.py
              "budget $20,000" Sample.europe) as (projected & H & _).
  now exists projected.
Defined.


(** ** The tool as a whole *)

Lemma filter_disjoint_length {A} (p q : A -> bool) (l : list A) :
  (forall x, p x = true -> q x = false) ->
  List.length (filter p l) + List.length (filter q l) <= List.length l.
Proof.
  intros H. induction l as [|x l IH]; simpl; [lia|].
  destruct (p x) eqn:Ep.
  - rewrite (H x Ep). simpl. lia.
  - destruct (q x); simpl; lia.
Qed.

Section Tool.

Import PerformanceAnalysis.

Variables (booster : Booster) (py : PyRuntime).

(** The three ways the tool ends on a non-empty segment. *)
Lemma analyze_nonempty_cases (query : string) (r : SegmentRecord)
      (rs : list SegmentRecord) :
  let records := r :: rs in
  let rows := map model_input records in
  (predict booster rows = None
   /\ _predict_and_explain booster py query (JsonRecords records)
      = (Raise XGBoostError, [ev_predict rows]))
  \/ (exists predictions,
        predict booster rows = Some predictions
        /\ List.length predictions <> List.length records
        /\ _predict_and_explain booster py query (JsonRecords records)
           = (Raise (ValueError "Length of values does not match length of index"),
              [ev_predict rows]))
  \/ (exists predictions out,
        predict booster rows = Some predictions
        /\ List.length predictions = List.length records
        /\ result (_predict_and_explain booster py query (JsonRecords records))
           = Ok out
        /\ trace (_predict_and_explain booster py query (JsonRecords records))
           = ev_predict rows :: ev_get_score
               :: trace (optional_projection booster py query records)).
Proof.
  intros records rows.
  destruct (predict booster rows) as [predictions|] eqn:P.
  - destruct (Nat.eqb_spec (List.length predictions) (List.length records)) as [E|E].
    + right. right.
      assert (Hne : records <> []) by discriminate.
      pose proof (analyze_nonempty booster py query records predictions Hne P E) as H.
      destruct (optional_projection_returns booster py query records) as [p Hp].
      rewrite Hp in H. exists predictions. eexists. rewrite H.
      split; [reflexivity|]. split; [exact E|]. split; reflexivity.
    + right. left. exists predictions. split; [reflexivity|]. split; [exact E|].
      unfold _predict_and_explain, read_json. cbn [bind ret is_empty].
      unfold booster_predict, assign_column. fold records. fold rows. rewrite P.
      cbn [bind ret log app].
      destruct (Nat.eqb_spec (List.length predictions) (List.length records));
        [contradiction|reflexivity].
  - left. split; [reflexivity|].
    unfold _predict_and_explain, read_json. cbn [bind ret is_empty].
    unfold booster_predict. fold records. fold rows. now rewrite P.
Qed.


Lemma optional_projection_trace (query : string) (records : list SegmentRecord) :
  trace (optional_projection booster py query records) = []
  \/ exists rows,
       trace (optional_projection booster py query records) = [ev_predict rows].
Proof.
  unfold optional_projection.
  destruct (re_search query) as [g|]; [|now left].
  destruct (Num.py_float (PyStr.remove_commas g)) as [budget|] eqn:E.
  - right. eexists.
    destruct (predict booster
                (synthetic budget
                   (series_mean py (map cost_per_click records))
                   (series_mean py (map cpm records))))
      as [[|p rest]|] eqn:P.
    + now rewrite (project_failed booster py _ _ _ E (or_intror P)).
    + now rewrite (project_predicted booster py _ _ _ _ _ E P).
    + now rewrite (project_failed booster py _ _ _ E (or_introl P)).
  - left. now rewrite (project_unparsed booster py _ _ E).
Qed.

(** X11. In one run the tool calls predict at most twice and get_score at
    most once, and never the language model; once get_score has been
    called nothing can raise any more, so a run that called it returns. *)
Theorem tool_call_discipline (query : string) (segment_json : json_text) :
  let t := trace (_predict_and_explain booster py query segment_json) in
  Calls.count Calls.is_predict t <= 2
  /\ Calls.count Calls.is_get_score t <= 1
  /\ Calls.count Calls.is_chain_run t = 0
  /\ (Calls.count Calls.is_get_score t = 1 ->
      exists out,
        result (_predict_and_explain booster py query segment_json) = Ok out).
Proof.
  destruct segment_json as [records|text];
    [|cbn; repeat split; lia].
  destruct records as [|r rs]; [cbn; repeat split; lia|].
  destruct (analyze_nonempty_cases query r rs)
    as [[_ E]|[(ps & _ & _ & E)|(ps & out & _ & _ & H & T)]].
  - rewrite E. cbn. repeat split; lia.
  - rewrite E. cbn. repeat split; lia.
  - cbv zeta. rewrite T.
    destruct (optional_projection_trace query (r :: rs)) as [Ht|(rows & Ht)];
      rewrite Ht; cbn; (repeat split; try lia; intros _; now exists out).
Qed.

(** X12. The two performer lists together are never longer than the
    segment: a record is listed at most once. *)
Theorem performers_fit_in_segment
        (query : string) (records : list SegmentRecord) (out : ToolOutput) :
  result (_predict_and_explain booster py query (JsonRecords records)) = Ok out ->
  List.length (high_performers (roi_summary out))
  + List.length (low_performers (roi_summary out))
  <= List.length records.
Proof.
  destruct records as [|r rs]; [cbn; intros [= <-]; cbn; lia|].
  intros H.
  destruct (analyze_nonempty_cases query r rs)
    as [[_ E]|[(ps & _ & _ & E)|(ps & out' & P & L & _ & _)]].
  - rewrite E in H. discriminate.
  - rewrite E in H. discriminate.
  - assert (Hne : r :: rs <> []) by discriminate.
    rewrite (analyze_nonempty booster py query (r :: rs) ps Hne P L) in H.
    destruct (optional_projection_returns booster py query (r :: rs)) as [p Hp].
    rewrite Hp in H. cbn [result fst] in H. injection H as <-.
    cbn [roi_summary high_performers low_performers]. rewrite !length_map.
    apply (filter_disjoint_length is_high is_low (r :: rs)). intros x Hx.
    unfold is_high, is_low, Num.gt, Num.lt in *. now apply gt_two_not_lt_one.
Qed.

End Tool.


Lemma tool_call_discipline_witness :
  exists out,
    result (PerformanceAnalysis._predict_and_explain Sample.booster Sample.py
              "europe $5,000" (JsonRecords Sample.europe)) = Ok out.
Proof.
  apply (tool_call_discipline Sample.booster Sample.py "europe $5,000"
           (JsonRecords Sample.europe)).
  reflexivity.
Defined.

Lemma performers_fit_in_segment_witness :
  exists out,
    result (PerformanceAnalysis._predict_and_explain Sample.booster Sample.py
              "europe" (JsonRecords Sample.europe)) = Ok out
    /\ List.length (high_performers (roi_summary out))
       + List.length (low_performers (roi_summary out)) <= 2.
Proof.
  eexists. split; [reflexivity|].
  apply (performers_fit_in_segment Sample.booster Sample.py "europe" Sample.europe).
  reflexivity.
Defined.


(** ** The ranking of the features *)

Lemma SFcompare_antisym (x y : spec_float) :
  SFcompare y x = option_map CompOpp (SFcompare x y).
Proof.
  destruct x as [sx|sx| |sx mx ex], y as [sy|sy| |sy my ey]; cbn;
    try reflexivity; try (now destruct sx); try (now destruct sy);
    try (now destruct sx, sy).
  destruct sx, sy; try reflexivity; f_equal;
    rewrite (Z.compare_antisym ex ey);
    destruct (ex ?= ey)%Z; cbn; try reflexivity;
    rewrite ?(Pos.compare_cont_antisym mx my Eq); reflexivity.
Qed.

Lemma ltb_asym (x y : float) :
  (x <? y)%float = true -> (y <? x)%float = false.
Proof.
  rewrite !ltb_spec. unfold SFltb. rewrite (SFcompare_antisym (Prim2SF x)).
  now destruct (SFcompare (Prim2SF x) (Prim2SF y)) as [[]|].
Qed.

Lemma not_nan_compare (x y : float) :
  is_nan x = false -> is_nan y = false ->
  exists c, SFcompare (Prim2SF x) (Prim2SF y) = Some c.
Proof.
  unfold is_nan. rewrite !negb_false_iff, !eqb_spec. unfold SFeqb.
  intros Hx Hy.
  destruct (Prim2SF x) as [sx|sx| |sx mx ex]; try discriminate;
    destruct (Prim2SF y) as [sy|sy| |sy my ey]; try discriminate;
    cbn; eexists; reflexivity.
Qed.

Lemma not_ltb_leb (x y : float) :
  is_nan x = false -> is_nan y = false ->
  (x <? y)%float = false -> (y <=? x)%float = true.
Proof.
  intros Hx Hy. destruct (not_nan_compare x y Hx Hy) as [c Hc].
  rewrite ltb_spec, leb_spec. unfold SFltb, SFleb.
  rewrite (SFcompare_antisym (Prim2SF x)), Hc. now destruct c.
Qed.

Section Ranking.

Import PerformanceAnalysis.

Lemma insert_desc_perm (x : string * float) (l : list (string * float)) :
  Permutation (insert_desc x l) (x :: l).
Proof.
  induction l as [|y l IH]; cbn; [reflexivity|].
  destruct (snd x <? snd y)%float; [|reflexivity].
  rewrite IH. apply perm_swap.
Qed.

Lemma insert_desc_hd (x y : string * float) (l : list (string * float)) :
  (snd x <? snd y)%float = true -> HdRel not_above y l ->
  HdRel not_above y (insert_desc x l).
Proof.
  intros Hxy Hl. destruct l as [|z l]; cbn.
  - constructor. unfold not_above. now apply ltb_asym.
  - inversion_clear Hl. destruct (snd x <? snd z)%float; constructor;
      [assumption|]. unfold not_above. now apply ltb_asym.
Qed.

Lemma insert_desc_sorted (x : string * float) (l : list (string * float)) :
  Sorted not_above l -> Sorted not_above (insert_desc x l).
Proof.
  induction 1 as [|y l Hs IH Hhd]; cbn.
  - repeat constructor.
  - destruct (snd x <? snd y)%float eqn:E.
    + constructor; [exact IH|]. now apply insert_desc_hd.
    + constructor; [now constructor|]. now constructor.
Qed.

(** X13. The explanation ranks every feature the model scores, each once;
    when no gain is NaN, each gain is at least the next. *)
Theorem features_ranked_by_descending_gain (items : list (string * float)) :
  Permutation (sorted_desc items) items
  /\ (Forall (fun kv => is_nan (snd kv) = false) items ->
      Sorted (fun a b => (snd b <=? snd a)%float = true) (sorted_desc items)).
Proof.
  assert (Hp : Permutation (sorted_desc items) items).
  { induction items as [|x l IH]; [constructor|].
    change (sorted_desc (x :: l)) with (insert_desc x (sorted_desc l)).
    rewrite insert_desc_perm. now constructor. }
  assert (Hs : Sorted not_above (sorted_desc items)).
  { clear Hp. induction items as [|x l IH]; [constructor|].
    change (sorted_desc (x :: l)) with (insert_desc x (sorted_desc l)).
    now apply insert_desc_sorted. }
  split; [exact Hp|].
  intros Hnan.
  assert (Hnan' : Forall (fun kv => is_nan (snd kv) = false) (sorted_desc items)).
  { rewrite Forall_forall in Hnan |- *. intros kv Hin. apply Hnan.
    now apply (Permutation_in _ Hp). }
  clear Hp Hnan. induction Hs as [|y l Hs IH Hhd]; [constructor|].
  inversion_clear Hnan' as [|? ? Hy Hl]. constructor; [now apply IH|].
  destruct Hhd as [|z l' Hyz]; constructor.
  inversion_clear Hl. now apply not_ltb_leb.
Qed.

End Ranking.

Lemma features_ranked_by_descending_gain_witness :
  Sorted (fun a b => (snd b <=? snd a)%float = true)
         (PerformanceAnalysis.sorted_desc
            [("cpm", 1.0); ("clicks", 3.0); ("cost_per_click", 1.0)]%float).
Proof.
  apply (features_ranked_by_descending_gain
           [("cpm", 1.0); ("clicks", 3.0); ("cost_per_click", 1.0)]%float).
  repeat constructor.
Defined.

(** ** Whitespace around the query *)

Lemma rev_string_acc (s acc : string) :
  PyStr.rev_string s acc = (PyStr.rev_string s "" ++ acc)%string.
Proof.
  revert acc. induction s as [|c s IH]; intros acc; cbn; [reflexivity|].
  rewrite (IH (String c acc)), (IH (String c "")).
  generalize (PyStr.rev_string s ""). intros r.
  induction r as [|d r IHr]; cbn; congruence.
Qed.

Lemma string_app_nil_r (s : string) : (s ++ "")%string = s.
Proof. induction s; cbn; congruence. Qed.

Lemma string_app_assoc (a b c : string) :
  ((a ++ b) ++ c)%string = (a ++ b ++ c)%string.
Proof. induction a; cbn; congruence. Qed.

Lemma rev_string_app (a b : string) :
  PyStr.rev_string (a ++ b) ""
  = (PyStr.rev_string b "" ++ PyStr.rev_string a "")%string.
Proof.
  induction a as [|c a IH]; cbn.
  - now rewrite string_app_nil_r.
  - rewrite (rev_string_acc (a ++ b)), (rev_string_acc a), IH.
    apply string_app_assoc.
Qed.

Lemma rev_string_involutive (s : string) :
  PyStr.rev_string (PyStr.rev_string s "") "" = s.
Proof.
  induction s as [|c s IH]; cbn; [reflexivity|].
  rewrite (rev_string_acc s), rev_string_app, IH. reflexivity.
Qed.

Lemma lstrip_no_leading_space (s : string) :
  Text.no_leading_space (PyStr.lstrip s) = true.
Proof.
  induction s as [|c s IH]; cbn; [reflexivity|].
  destruct (PyStr.is_space c) eqn:E; [exact IH|]. cbn. now rewrite E.
Qed.

Lemma lstrip_fixed (s : string) :
  Text.no_leading_space s = true -> PyStr.lstrip s = s.
Proof.
  destruct s as [|c s]; cbn; [reflexivity|].
  now destruct (PyStr.is_space c).
Qed.

Lemma lstrip_split (s : string) :
  exists pre, s = (pre ++ PyStr.lstrip s)%string.
Proof.
  induction s as [|c s [pre IH]]; cbn.
  - now exists "".
  - destruct (PyStr.is_space c).
    + exists (String c pre). cbn. now rewrite <- IH.
    + now exists "".
Qed.

Lemma strip_no_leading_space (s : string) :
  Text.no_leading_space (PyStr.strip s) = true.
Proof.
  unfold PyStr.strip.
  pose proof (lstrip_no_leading_space s) as Ha.
  destruct (lstrip_split (PyStr.rev_string (PyStr.lstrip s) "")) as [pre Hpre].
  apply (f_equal (fun x => PyStr.rev_string x "")) in Hpre.
  rewrite rev_string_involutive, rev_string_app in Hpre.
  rewrite Hpre in Ha.
  destruct (PyStr.rev_string
              (PyStr.lstrip (PyStr.rev_string (PyStr.lstrip s) "")) "");
    [reflexivity|exact Ha].
Qed.

Lemma strip_idempotent (s : string) :
  PyStr.strip (PyStr.strip s) = PyStr.strip s.
Proof.
  unfold PyStr.strip at 1.
  rewrite (lstrip_fixed _ (strip_no_leading_space s)).
  unfold PyStr.strip. rewrite rev_string_involutive.
  now rewrite (lstrip_fixed _ (lstrip_no_leading_space _)).
Qed.

(** X14. Whitespace around the query of a request plays no part: the
    request with the stripped query ends the same way, after the same
    calls. *)
Theorem surrounding_whitespace_ignored
        (df : list CampaignRow) (booster : Booster) (py : PyRuntime)
        (chain : LLMChain) (body : string) :
  Main.recommend df booster py chain (PyStr.strip body)
  = Main.recommend df booster py chain body.
Proof. unfold Main.recommend. now rewrite strip_idempotent. Qed.

(** ** Requests from end to end *)

Lemma final_strategy_text_not_empty (g : string) :
  Main.final_strategy_text g <> "".
Proof.
  unfold Main.final_strategy_text.
  destruct (Main.quota_reached g); [discriminate|].
  destruct (String.eqb_spec g ""); [discriminate|assumption].
Qed.


Section EndToEnd.

Variables (df : list CampaignRow) (booster : Booster) (py : PyRuntime)
          (chain : LLMChain).

Lemma tool_logs_no_chain_run (query : string) (segment_json : json_text) :
  Calls.count Calls.is_chain_run
    (trace (PerformanceAnalysis.performance_analysis booster py query segment_json))
  = 0.
Proof.
  unfold PerformanceAnalysis.performance_analysis.
  destruct segment_json as [records|text]; [|reflexivity].
  destruct records as [|r rs]; [reflexivity|].
  destruct (analyze_nonempty_cases booster py query r rs)
    as [[_ E]|[(ps & _ & _ & E)|(ps & out & _ & _ & _ & T)]].
  - now rewrite E.
  - now rewrite E.
  - rewrite T.
    destruct (optional_projection_trace booster py query (r :: rs))
      as [Ht|(rows & Ht)]; now rewrite Ht.
Qed.

(** X15. When no row matches the query the request is answered whatever
    the model does: the segment is empty, the summary is the empty one, the
    model is never called, and the language model is called once. *)
Theorem no_match_request_is_answered (body : string) :
  let q := PyStr.strip body in
  q <> "" ->
  SegmentInsight.filtered_rows df q = [] ->
  exists g,
    result (StrategyGenerator.generate_strategy chain q
              PerformanceAnalysis.empty_summary) = Ok g
    /\ Main.recommend df booster py chain body
       = (Ok {| Main.segment := [];
                Main.performance :=
                  {| high_performers := []; low_performers := [];
                     average_roi := None; top_features := "";
                     projected_roi := None |};
                Main.strategy := Main.final_strategy_text g |},
          [ev_enter "segment_insight"; ev_return "segment_insight";
           ev_enter "performance_analysis"; ev_return "performance_analysis";
           ev_enter "strategy_generator"; ev_chain_run q;
           ev_return "strategy_generator"]).
Proof.
  intros q Hq Hempty.
  destruct (generate_strategy_returns chain q PerformanceAnalysis.empty_summary)
    as [g Hg].
  exists g. split; [now rewrite Hg|].
  assert (Hseg : SegmentInsight.segment_insight df q = JsonRecords [])
    by now rewrite segment_insight_records, Hempty.
  unfold Main.recommend. fold q.
  destruct (String.eqb_spec q "") as [|_]; [contradiction|].
  rewrite (graph_app_completes df booster py chain q
             PerformanceAnalysis.empty_summary [] g);
    [|now rewrite Hseg|now rewrite Hg].
  rewrite Hseg. reflexivity.
Qed.

(** X16. An error of the second stage fails the request with that error;
    the language model is not called and no response is built. *)
Theorem stage_two_error_fails_request (body : string) (e : exn) :
  let q := PyStr.strip body in
  q <> "" ->
  result (PerformanceAnalysis.performance_analysis booster py q
            (SegmentInsight.segment_insight df q)) = Raise e ->
  result (Main.recommend df booster py chain body) = Raise e
  /\ Calls.count Calls.is_chain_run
       (trace (Main.recommend df booster py chain body)) = 0.
Proof.
  intros q Hq H2.
  pose proof (tool_logs_no_chain_run q (SegmentInsight.segment_insight df q)) as Hc.
  destruct (PerformanceAnalysis.performance_analysis booster py q
              (SegmentInsight.segment_insight df q)) as [[pa|e'] t2] eqn:E2;
    [discriminate|].
  cbn in H2. injection H2 as ->. cbn [trace snd] in Hc.
  unfold Main.recommend. fold q.
  destruct (String.eqb_spec q "") as [|_]; [contradiction|].
  rewrite (graph_app_aborts df booster py chain q e t2 E2).
  cbn [bind result trace fst snd]. split; [reflexivity|].
  unfold Calls.count in *. cbn. exact Hc.
Qed.

(** X17. The strategy of a response is never empty. *)
Theorem response_strategy_never_empty (body : string) (resp : Main.RecommendResponse) :
  result (Main.recommend df booster py chain body) = Ok resp ->
  Main.strategy resp <> "".
Proof.
  unfold Main.recommend.
  destruct (String.eqb (PyStr.strip body) ""); [discriminate|].
  destruct (Flow.graph_app df booster py chain (PyStr.strip body))
    as [[st|e] t]; [|discriminate].
  cbn. intros [= <-]. cbn. apply final_strategy_text_not_empty.
Qed.


End EndToEnd.

Lemma no_match_request_is_answered_witness :
  exists g,
    result (Main.recommend Sample.df Sample.failing_booster Sample.py Sample.chain
              "gbs in asia")
    = Ok {| Main.segment := [];
            Main.performance :=
              {| high_performers := []; low_performers := [];
                 average_roi := None; top_features := "";
                 projected_roi := None |};
            Main.strategy := Main.final_strategy_text g |}.
Proof.
  destruct (no_match_request_is_answered Sample.df Sample.failing_booster Sample.py
              Sample.chain "gbs in asia") as (g & _ & H).
  - discriminate.
  - reflexivity.
  - exists g. now rewrite H.
Defined.

Lemma stage_two_error_fails_request_witness :
  result (Main.recommend Sample.df Sample.failing_booster Sample.py Sample.chain
            "display in asia") = Raise XGBoostError.
Proof.
  apply (stage_two_error_fails_request Sample.df Sample.failing_booster Sample.py
           Sample.chain "display in asia" XGBoostError).
  - discriminate.
  - reflexivity.
Defined.

Lemma response_strategy_never_empty_witness :
  Main.strategy
    {| Main.segment := [];
       Main.performance :=
         {| high_performers := []; low_performers := [];
            average_roi := None; top_features := "";
            projected_roi := None |};
       Main.strategy := "No strategy generated. Please refine your query." |}
  <> "".
Proof.
  apply (response_strategy_never_empty Sample.df Sample.booster Sample.py
           {| run := fun _ _ => inr "" |} "security in asia").
  reflexivity.
Defined.


(** ** Longer queries *)

Lemma subseq_filter_imp {A} (p1 p2 : A -> bool) (l : list A) :
  (forall x, p2 x = true -> p1 x = true) ->
  subseq (filter p2 l) (filter p1 l).
Proof.
  intros H. induction l as [|x l IH]; cbn; [constructor|].
  destruct (p2 x) eqn:E2.
  - rewrite (H x E2). now constructor.
  - destruct (p1 x); [now constructor|exact IH].
Qed.

Lemma contains_in_longer (k pre q post : string) :
  PyStr.contains k q = true -> PyStr.contains k (pre ++ q ++ post) = true.
Proof.
  rewrite !contains_iff. intros (a & b & ->).
  exists (pre ++ a)%string, (b ++ post)%string.
  now rewrite !string_app_assoc.
Qed.

Section LongerQueries.

Import SegmentInsight QueryPredicates.

Lemma satisfies_mono (lq1 lq2 : string) (row : CampaignRow) :
  (forall k, PyStr.contains k lq1 = true -> PyStr.contains k lq2 = true) ->
  satisfies lq2 row = true -> satisfies lq1 row = true.
Proof.
  intros Hk. unfold satisfies. rewrite !andb_true_iff. intros [[H1 H2] H3].
  assert (Himp : forall k b, implb (PyStr.contains k lq2) b = true ->
                             implb (PyStr.contains k lq1) b = true).
  { intros k b. destruct (PyStr.contains k lq1) eqn:E; [|reflexivity].
    now rewrite (Hk k E). }
  split; [split|]; [|now apply Himp|now apply Himp].
  rewrite forallb_forall in H1 |- *. intros entry Hin. specialize (H1 _ Hin).
  unfold dimension_holds in *. rewrite forallb_forall in H1 |- *.
  intros k Hkin. specialize (H1 _ Hkin). unfold keyword_holds in *.
  now apply Himp.
Qed.

(** X19. Words added to a query, before or after, never add a record: the
    segment of the longer query is the segment of the query with some
    records left out, the others in their order. *)
Theorem longer_query_never_widens
        (df : list CampaignRow) (pre query post : string) :
  subseq (Main.seg_list (segment_insight df (pre ++ query ++ post)))
         (Main.seg_list (segment_insight df query)).
Proof.
  rewrite !segment_insight_records. cbn [Main.seg_list].
  rewrite !filtered_rows_filter. apply subseq_map, subseq_filter_imp.
  intros row. apply satisfies_mono. intros k.
  rewrite !lower_app. apply contains_in_longer.
Qed.

End LongerQueries.

(** ** The query and the summary *)

Section QueryAndSummary.

Import PerformanceAnalysis.

Variables (booster : Booster) (py : PyRuntime).


End QueryAndSummary.


Lemma summary_independent_of_projection_witness :
  average_roi (roi_summary
     {| roi_summary :=
          {| high_performers := ["Watson | Paid Search | Europe → ROI: #"];
             low_performers := ["Cloud | Display | Europe → ROI: #"];
             average_roi := Some 1.5%float;
             top_features := "clicks (#), cpm (#)";
             projected_roi := Some 1.5%float |} |})
  = average_roi (roi_summary
     {| roi_summary :=
          {| high_performers := ["Watson | Paid Search | Europe → ROI: #"];
             low_performers := ["Cloud | Display | Europe → ROI: #"];
             average_roi := Some 1.5%float;
             top_features := "clicks (#), cpm (#)";
             projected_roi := None |} |}).
Proof.
  apply (summary_independent_of_projection Sample.booster Sample.py
           "europe with $5,000" "europe" (JsonRecords Sample.europe)).
  - reflexivity.
  - reflexivity.
Defined.

(** ** The calls of a request *)

Section CallsOfARequest.

Variables (df : list CampaignRow) (booster : Booster) (py : PyRuntime)
          (chain : LLMChain).

Lemma count_app (p : event -> bool) (t1 t2 : list event) :
  Calls.count p (t1 ++ t2) = Calls.count p t1 + Calls.count p t2.
Proof. unfold Calls.count. now rewrite filter_app, length_app. Qed.

Lemma tool_call_counts (query : string) (segment_json : json_text) :
  let t := trace (PerformanceAnalysis.performance_analysis booster py
                    query segment_json) in
  Calls.count Calls.is_predict t <= 2
  /\ Calls.count Calls.is_get_score t <= 1
  /\ Calls.count Calls.is_chain_run t = 0.
Proof.
  unfold PerformanceAnalysis.performance_analysis.
  destruct segment_json as [records|text]; [|cbn; lia].
  destruct records as [|r rs]; [cbn; lia|].
  destruct (analyze_nonempty_cases booster py query r rs)
    as [[_ E]|[(ps & _ & _ & E)|(ps & out & _ & _ & _ & T)]].
  - rewrite E. cbn. lia.
  - rewrite E. cbn. lia.
  - cbv zeta. rewrite T.
    destruct (optional_projection_trace booster py query (r :: rs))
      as [Ht|(rows & Ht)]; rewrite Ht; cbn; lia.
Qed.

(** X21. One request calls the language model at most once, the model's
    predict at most twice and its get_score at most once. *)
Theorem request_call_budget (body : string) :
  let t := trace (Main.recommend df booster py chain body) in
  Calls.count Calls.is_chain_run t <= 1
  /\ Calls.count Calls.is_predict t <= 2
  /\ Calls.count Calls.is_get_score t <= 1.
Proof.
  unfold Main.recommend.
  destruct (String.eqb (PyStr.strip body) ""); [cbn; lia|].
  set (q := PyStr.strip body).
  pose proof (tool_call_counts q (SegmentInsight.segment_insight df q))
    as (Hp & Hs & Hc).
  destruct (PerformanceAnalysis.performance_analysis booster py q
              (SegmentInsight.segment_insight df q)) as [[pa|e] t2] eqn:E2;
    cbn [trace snd] in Hp, Hs, Hc.
  - destruct (generate_strategy_returns chain q pa) as [g Hg].
    rewrite (graph_app_completes df booster py chain q pa t2 g E2);
      [|now rewrite Hg].
    cbn [bind ret trace snd]. rewrite app_nil_r, !count_app.
    cbn. lia.
  - rewrite (graph_app_aborts df booster py chain q e t2 E2).
    cbn [bind trace snd]. rewrite !count_app. cbn. lia.
Qed.

End CallsOfARequest.
